(** * serve-and-track: the request handlers of the tracking web server

    A shallow embedding of [serve_and_track.go]: the two handlers
    [serveImage] and [serveState], the health check [serviceHealthy], the
    route table of [initServer], and the three Prometheus metrics they
    update.  The Go standard library, the router and the metrics library are
    modelled at the interface the program uses:

    - a [ResponseWriter] records what a handler does to it: the headers set,
      the status line together with the headers in force when it was
      written, the bytes handed to [Write]; whether the connection took the
      bytes, and the error [Write] returns, are given by the environment of
      the invocation;
    - [os.Stat] reads a file system in which an entry is absent, present and
      reachable, or present but not stat-able;
    - the router matches the request path against the registered paths, in
      the order of registration, whatever the method;
    - a counter holds a natural number (the library keeps a float64, exact
      on the integers a counter reaches through [Inc] and [Add(42)] below
      2^53) and the summary keeps its observations, elapsed times in
      nanoseconds as [time.Duration] has them.

    A handler is a state transformer over the connection's writer and the
    process-wide state.  The access log that wraps the router writes a line
    per request and touches nothing the handlers read; it is left out.

    Of the server's life, [startServer] and [stopServer] are embedded as
    functions of what [ListenAndServe] and [Shutdown] return, and [main] from
    the wait for a signal on; the parsing of flags, the opening of the log
    files and the registration of the metrics are left out. *)

From Stdlib Require Import ZArith NArith List Lia.
From Stdlib Require Import Strings.String Strings.Byte.
From stdpp Require Import base strings gmap list.

Open Scope string_scope.

(** ** The world outside the program *)

Module os.

(** Why a stat of a path fails. *)
Inductive Errno := ENOENT | EACCES | EIO.

(** What stands in the way of an entry that is present. *)
Inductive Fault := PermissionDenied | IOFault.

(** A directory entry: it can be stat-ed, or it is there and the stat of it
    fails (a path component that may not be searched, a failing device). *)
Inductive Entry := Reachable | Blocked (f : Fault).

Definition errno_of (f : Fault) : Errno :=
  match f with PermissionDenied => EACCES | IOFault => EIO end.

(** [os.Stat(name)]: [inl tt] stands for the [FileInfo] (the program drops
    it), [inr e] for the error. *)
Definition Stat (fs : gmap string Entry) (name : string) : unit + Errno :=
  match fs !! name with
  | None => inr ENOENT
  | Some Reachable => inl tt
  | Some (Blocked f) => inr (errno_of f)
  end.

End os.

(** The outcome the connection gives to the [Write] of an invocation: all
    bytes taken and a nil error, or an error after [n] bytes. *)
Inductive WriteOutcome :=
| WriteOk
| WriteErr (n : nat) (msg : string).

(** What the environment contributes to one handler invocation. *)
Record Env := {
  fs : gmap string os.Entry;   (* the file system at the time of the request *)
  conn : WriteOutcome;         (* what the connection does with the body *)
  clockEntry : Z;              (* time.Now() when the handler is entered *)
  clockExit : Z                (* the clock when the handler returns *)
}.

Module time.
Definition Now (e : Env) : Z := clockEntry e.
Definition Since (e : Env) (start : Z) : Z := clockExit e - start.
End time.

(** ** Command line configuration *)

Record Config := {
  listenAddress : string;
  trackingURLPath : string;
  metricsURLPath : string;
  stateURLPath : string;
  stateFilePath : string;
  accessLogFilePath : string;
  serviceLogFilePath : string
}.

Definition defaultConfig : Config := {|
  listenAddress := ":8080";
  trackingURLPath := "/track";
  metricsURLPath := "/metrics";
  stateURLPath := "/state";
  stateFilePath := "./state";
  accessLogFilePath := "";
  serviceLogFilePath := ""
|}.

(** ** The tracking image *)

Definition byte_of (n : N) : byte :=
  match Byte.of_N n with Some b => b | None => x00 end.

Definition GIF : list byte := map byte_of [
  71; 73; 70; 56; 57; 97; 1; 0; 1; 0; 128; 0; 0; 0; 0; 0;
  255; 255; 255; 33; 249; 4; 1; 0; 0; 0; 0; 44; 0; 0; 0; 0;
  1; 0; 1; 0; 0; 2; 1; 68; 0; 59
]%N.

(** ** Monitoring metrics *)

Record Metrics := {
  serveImageRequestDuration : list Z;          (* the summary's observations *)
  serveImageRequestsSize : N;                  (* tracking_requests_size_total *)
  serveImageRequestsCount : gmap string N      (* tracking_requests_count_total, by status *)
}.

Module prometheus.

(** A label's child counter reads 0 until it is first used. *)
Definition Value (vec : gmap string N) (label : string) : N :=
  default 0%N (vec !! label).

Definition Observe (v : Z) (m : Metrics) : Metrics :=
  {| serveImageRequestDuration := serveImageRequestDuration m ++ [v];
     serveImageRequestsSize := serveImageRequestsSize m;
     serveImageRequestsCount := serveImageRequestsCount m |}.

Definition Add (v : N) (m : Metrics) : Metrics :=
  {| serveImageRequestDuration := serveImageRequestDuration m;
     serveImageRequestsSize := (serveImageRequestsSize m + v)%N;
     serveImageRequestsCount := serveImageRequestsCount m |}.

(** [vec.WithLabelValues(label).Inc()] *)
Definition WithLabelValues_Inc (label : string) (m : Metrics) : Metrics :=
  {| serveImageRequestDuration := serveImageRequestDuration m;
     serveImageRequestsSize := serveImageRequestsSize m;
     serveImageRequestsCount :=
       <[label := (Value (serveImageRequestsCount m) label + 1)%N]>
         (serveImageRequestsCount m) |}.

(** The count line of the summary. *)
Definition Count (m : Metrics) : nat := length (serveImageRequestDuration m).

End prometheus.

(** The registry as the process starts. *)
Definition initMetrics : Metrics :=
  {| serveImageRequestDuration := [];
     serveImageRequestsSize := 0%N;
     serveImageRequestsCount := ∅ |}.

(** ** Process-wide state *)

Inductive Syscall := SysStat (name : string).

Record Proc := {
  metrics : Metrics;
  serviceLog : list string;     (* lines given to the log package *)
  syscalls : list Syscall       (* file system queries made so far *)
}.

Definition initProc : Proc :=
  {| metrics := initMetrics; serviceLog := []; syscalls := [] |}.

(** ** Requests and the response writer *)

Record Request := { Method : string; URLPath : string }.

Record ResponseWriter := {
  header : gmap string string;       (* w.Header() *)
  status : option Z;                 (* the status line, once written *)
  sentHeader : gmap string string;   (* the headers that went with it *)
  body : list byte;                  (* the bytes handed to Write *)
  accepted : nat                     (* how many of them the connection took *)
}.

Definition newResponseWriter : ResponseWriter :=
  {| header := ∅; status := None; sentHeader := ∅; body := []; accepted := 0 |}.

(** ** Handlers as state transformers *)

Record Ctx := { w : ResponseWriter; proc : Proc }.

Definition Handler (A : Type) : Type := Ctx -> A * Ctx.

#[global] Instance Handler_ret : MRet Handler := λ A a c, (a, c).
#[global] Instance Handler_bind : MBind Handler :=
  λ A B f m c, let '(a, c') := m c in f a c'.

Definition onWriter {A} (f : ResponseWriter -> A * ResponseWriter) : Handler A :=
  λ c, let '(a, w') := f (w c) in (a, {| w := w'; proc := proc c |}).

Definition onProc {A} (f : Proc -> A * Proc) : Handler A :=
  λ c, let '(a, p') := f (proc c) in (a, {| w := w c; proc := p' |}).

Definition onMetrics (f : Metrics -> Metrics) : Handler unit :=
  onProc (λ p, (tt, {| metrics := f (metrics p);
                       serviceLog := serviceLog p;
                       syscalls := syscalls p |})).

(** [defer d] ahead of [body]: [d] runs when [body] has returned, whichever
    [return] it took. *)
Definition defer {A} (d : Handler unit) (body : Handler A) : Handler A :=
  a ← body; d;; mret a.

(** ** The [net/http] operations the handlers use *)

Definition newline : string := String (Ascii.ascii_of_nat 10) EmptyString.

Module http.

Definition StatusOK : Z := 200.
Definition StatusNotFound : Z := 404.

(** [w.Header().Set(key, value)] *)
Definition Header_Set (key value : string) : Handler unit :=
  onWriter (λ w, (tt, {| header := <[key := value]> (header w);
                         status := status w;
                         sentHeader := sentHeader w;
                         body := body w;
                         accepted := accepted w |})).

(** [w.WriteHeader(code)]: the first call fixes the status line and the
    headers that go out; a later call changes nothing. *)
Definition WriteHeader (code : Z) : Handler unit :=
  onWriter (λ w,
    match status w with
    | Some _ => (tt, w)
    | None => (tt, {| header := header w;
                      status := Some code;
                      sentHeader := header w;
                      body := body w;
                      accepted := accepted w |})
    end).

Definition taken (o : WriteOutcome) (p : list byte) : nat :=
  match o with
  | WriteOk => length p
  | WriteErr n _ => Nat.min n (length p)
  end.

Definition error_of (o : WriteOutcome) : option string :=
  match o with WriteOk => None | WriteErr _ msg => Some msg end.

(** [w.Write(p)]: writes the status line with 200 if none was written, then
    the bytes; the error it returns is the connection's. *)
Definition Write (e : Env) (p : list byte) : Handler (option string) :=
  WriteHeader StatusOK;;
  onWriter (λ w, (error_of (conn e),
                  {| header := header w;
                     status := status w;
                     sentHeader := sentHeader w;
                     body := body w ++ p;
                     accepted := accepted w + taken (conn e) p |})).

(** [http.Error(w, error, code)] *)
Definition Error (e : Env) (error : string) (code : Z) : Handler unit :=
  Header_Set "Content-Type" "text/plain; charset=utf-8";;
  Header_Set "X-Content-Type-Options" "nosniff";;
  WriteHeader code;;
  _ ← Write e (list_byte_of_string (error ++ newline));
  mret tt.

(** [http.NotFound(w, r)] *)
Definition NotFound (e : Env) (r : Request) : Handler unit :=
  Error e "404 page not found" StatusNotFound.

End http.

Module log.
(** [log.Println(line)], the line without date and time. *)
Definition Println (line : string) : Handler unit :=
  onProc (λ p, (tt, {| metrics := metrics p;
                       serviceLog := serviceLog p ++ [line];
                       syscalls := syscalls p |})).
End log.

(** [os.Stat] as the process calls it: the query is noted, the error (nil as
    [None]) is what the program keeps of the result. *)
Definition os_Stat (e : Env) (name : string) : Handler (option os.Errno) :=
  onProc (λ p, (match os.Stat (fs e) name with inl _ => None | inr err => Some err end,
                {| metrics := metrics p;
                   serviceLog := serviceLog p;
                   syscalls := syscalls p ++ [SysStat name] |})).

(** ** The program *)

Import http.

(** Measures function execution time. *)
Definition trackServeImageDuration (e : Env) (start : Z) (id : string) : Handler unit :=
  let elapsed := time.Since e start in
  onMetrics (prometheus.Observe elapsed).

(** Serves tracking image. *)
Definition serveImage (e : Env) (r : Request) : Handler unit :=
  defer (trackServeImageDuration e (time.Now e) "serveImage")
    (if decide (Method r ≠ "GET") then
       http.NotFound e r
     else
       Header_Set "Cache-Control" "no-cache, no-store, must-revalidate";;
       Header_Set "Content-Type" "image/gif";;
       err ← Write e GIF;
       match err with
       | Some _ =>
           onMetrics (prometheus.WithLabelValues_Inc "failure")
       | None =>
           onMetrics (prometheus.WithLabelValues_Inc "success");;
           onMetrics (prometheus.Add (N.of_nat (length GIF)))
       end).

(** Checks service state: true if service is healthy, false otherwise. *)
Definition serviceHealthy (cfg : Config) (e : Env) : Handler bool :=
  err ← os_Stat e (stateFilePath cfg);
  mret (bool_decide (err = None)).

(** Serves service state: http 200 when healthy, http 503 otherwise. *)
Definition serveState (cfg : Config) (e : Env) (r : Request) : Handler unit :=
  if decide (Method r ≠ "GET") then
    http.NotFound e r
  else
    Header_Set "Cache-Control" "no-cache, no-store, must-revalidate";;
    Header_Set "Content-Type" "text/html";;
    healthy ← serviceHealthy cfg e;
    if negb healthy then
      WriteHeader 503;;
      err ← Write e (list_byte_of_string "Error 503 (Service not available)");
      match err with
      | Some msg => log.Println ("WARNING " ++ msg)
      | None => mret tt
      end
    else
      err ← Write e (list_byte_of_string "OK");
      match err with
      | Some msg => log.Println ("WARNING " ++ msg)
      | None => mret tt
      end.

(** ** The route table of [initServer] *)

Inductive Route := ToServeImage | ToServeState | ToMetrics.

#[global] Instance Route_eq_dec : EqDecision Route.
Proof. solve_decision. Defined.

Definition routes (cfg : Config) : list (string * Route) :=
  [ (trackingURLPath cfg, ToServeImage);
    (stateURLPath cfg, ToServeState);
    (metricsURLPath cfg, ToMetrics) ].

(** The router takes the first registered route whose path is the
    request's; the method plays no part. *)
Fixpoint match_route (rs : list (string * Route)) (path : string) : option Route :=
  match rs with
  | [] => None
  | (p, h) :: rs' => if decide (p = path) then Some h else match_route rs' path
  end.

Definition route (cfg : Config) (path : string) : option Route :=
  match_route (routes cfg) path.

Section Server.

(** The handler of the metrics library: it reads the registry and writes
    to the connection, nothing else. *)
Variable promhttp_Handler : Metrics -> Env -> ResponseWriter -> ResponseWriter.

Definition serveMetrics (e : Env) : Handler unit :=
  λ c, (tt, {| w := promhttp_Handler (metrics (proc c)) e (w c); proc := proc c |}).

Definition dispatch (cfg : Config) (e : Env) (r : Request) : Handler unit :=
  match route cfg (URLPath r) with
  | Some ToServeImage => serveImage e r
  | Some ToServeState => serveState cfg e r
  | Some ToMetrics => serveMetrics e
  | None => http.NotFound e r
  end.

(** One request, from a fresh writer to the response and the new process
    state. *)
Definition ServeHTTP (cfg : Config) (e : Env) (r : Request) (p : Proc)
  : ResponseWriter * Proc :=
  let c := snd (dispatch cfg e r {| w := newResponseWriter; proc := p |}) in
  (w c, proc c).

(** Requests served one after the other, each in its own environment. *)
Fixpoint serve (cfg : Config) (reqs : list (Env * Request)) (p : Proc)
  : list ResponseWriter * Proc :=
  match reqs with
  | [] => ([], p)
  | (e, r) :: reqs' =>
      let '(resp, p1) := ServeHTTP cfg e r p in
      let '(resps, p2) := serve cfg reqs' p1 in
      (resp :: resps, p2)
  end.

End Server.

(** ** What each path of the handlers leaves behind *)

Definition withMetrics (m : Metrics) (p : Proc) : Proc :=
  {| metrics := m; serviceLog := serviceLog p; syscalls := syscalls p |}.

Definition elapsed (e : Env) : Z := clockExit e - clockEntry e.

(** The response of [http.NotFound] on a fresh writer. *)
Definition notFoundHeader : gmap string string :=
  <["X-Content-Type-Options" := "nosniff"]>
    (<["Content-Type" := "text/plain; charset=utf-8"]> ∅).

Definition notFoundBody : list byte :=
  list_byte_of_string ("404 page not found" ++ newline).

Definition notFoundResponse (e : Env) : ResponseWriter :=
  {| header := notFoundHeader;
     status := Some 404%Z;
     sentHeader := notFoundHeader;
     body := notFoundBody;
     accepted := taken (conn e) notFoundBody |}.

(** The response of [serveImage] to a GET. *)
Definition imageHeader : gmap string string :=
  <["Content-Type" := "image/gif"]>
    (<["Cache-Control" := "no-cache, no-store, must-revalidate"]> ∅).

Definition imageResponse (e : Env) : ResponseWriter :=
  {| header := imageHeader;
     status := Some 200%Z;
     sentHeader := imageHeader;
     body := GIF;
     accepted := taken (conn e) GIF |}.

(** The registry after the GET branch of [serveImage], before the deferred
    observation. *)
Definition imageCounted (e : Env) (m : Metrics) : Metrics :=
  match error_of (conn e) with
  | Some _ => prometheus.WithLabelValues_Inc "failure" m
  | None => prometheus.Add 42 (prometheus.WithLabelValues_Inc "success" m)
  end.

(** The response of [serveState] to a GET. *)
Definition stateHeader : gmap string string :=
  <["Content-Type" := "text/html"]>
    (<["Cache-Control" := "no-cache, no-store, must-revalidate"]> ∅).

Definition healthy (cfg : Config) (e : Env) : bool :=
  match os.Stat (fs e) (stateFilePath cfg) with inl _ => true | inr _ => false end.

Definition stateStatus (ok : bool) : Z := if ok then 200 else 503.

Definition stateBody (ok : bool) : list byte :=
  list_byte_of_string (if ok then "OK" else "Error 503 (Service not available)").

Definition stateResponse (cfg : Config) (e : Env) : ResponseWriter :=
  {| header := stateHeader;
     status := Some (stateStatus (healthy cfg e));
     sentHeader := stateHeader;
     body := stateBody (healthy cfg e);
     accepted := taken (conn e) (stateBody (healthy cfg e)) |}.

Definition stateWarning (e : Env) : list string :=
  match error_of (conn e) with
  | Some msg => ["WARNING " ++ msg]
  | None => []
  end.

Definition stateProc (cfg : Config) (e : Env) (p : Proc) : Proc :=
  {| metrics := metrics p;
     serviceLog := serviceLog p ++ stateWarning e;
     syscalls := syscalls p ++ [SysStat (stateFilePath cfg)] |}.

(** ** Reading the registry *)

Definition observations (p : Proc) : nat := prometheus.Count (metrics p).
Definition successes (p : Proc) : N :=
  prometheus.Value (serveImageRequestsCount (metrics p)) "success".
Definition failures (p : Proc) : N :=
  prometheus.Value (serveImageRequestsCount (metrics p)) "failure".
Definition bytesServed (p : Proc) : N := serveImageRequestsSize (metrics p).

(** How many requests of the list the router hands to [serveImage]. *)
Fixpoint imageInvocations (cfg : Config) (reqs : list (Env * Request)) : nat :=
  match reqs with
  | [] => 0
  | (_, r) :: reqs' =>
      (if decide (route cfg (URLPath r) = Some ToServeImage) then 1 else 0)
      + imageInvocations cfg reqs'
  end.

Definition withFs (f : gmap string os.Entry) (e : Env) : Env :=
  {| fs := f; conn := conn e; clockEntry := clockEntry e; clockExit := clockExit e |}.

(** The response carries the image: status 200, the image media type, the
    whole payload handed over and taken by the connection. *)
Definition answeredWithImage (resp : ResponseWriter) : Prop :=
  status resp = Some 200%Z
  /\ sentHeader resp !! "Content-Type" = Some "image/gif"
  /\ body resp = GIF
  /\ accepted resp = length GIF.

(** ** Invocations that overlap

    The server runs one goroutine per connection, so the registry
    operations of several invocations may interleave.  Each operation is
    atomic in the metrics library; an interleaving is then a permutation of
    the operations of the invocations, and the readings after all of them
    depend on the operations only, not on their order. *)

Inductive MetricOp :=
| OpObserve (v : Z)
| OpAdd (v : N)
| OpInc (label : string).

Definition perform (m : Metrics) (o : MetricOp) : Metrics :=
  match o with
  | OpObserve v => prometheus.Observe v m
  | OpAdd v => prometheus.Add v m
  | OpInc label => prometheus.WithLabelValues_Inc label m
  end.

(** The registry operations of one invocation of [serveImage], in program
    order: the deferred observation comes last. *)
Definition imageOps (e : Env) (r : Request) : list MetricOp :=
  (if decide (Method r ≠ "GET") then []
   else match error_of (conn e) with
        | Some _ => [OpInc "failure"]
        | None => [OpInc "success"; OpAdd (N.of_nat (length GIF))]
        end)
  ++ [OpObserve (time.Since e (time.Now e))].

Definition tally (f : MetricOp -> N) (ops : list MetricOp) : N :=
  foldr (fun o acc => (f o + acc)%N) 0%N ops.

Definition observed (o : MetricOp) : N :=
  match o with OpObserve _ => 1 | _ => 0 end.
Definition added (o : MetricOp) : N :=
  match o with OpAdd v => v | _ => 0 end.
Definition bumped (label : string) (o : MetricOp) : N :=
  match o with
  | OpInc label' => if decide (label' = label) then 1 else 0
  | _ => 0
  end.

(** ** Sample inputs *)

Definition request (method path : string) : Request :=
  {| Method := method; URLPath := path |}.

(** An environment whose clock advances by 5 between entry and exit. *)
Definition env (f : gmap string os.Entry) (o : WriteOutcome) : Env :=
  {| fs := f; conn := o; clockEntry := 100; clockExit := 105 |}.

Definition markerPresent : gmap string os.Entry := {[ "./state" := os.Reachable ]}.
Definition markerDenied : gmap string os.Entry :=
  {[ "./state" := os.Blocked os.PermissionDenied ]}.

(** A stand-in for the metrics library's handler: status 200, no body. *)
Definition blankExposition (m : Metrics) (e : Env) (w0 : ResponseWriter) : ResponseWriter :=
  {| header := header w0; status := Some 200%Z; sentHeader := header w0;
     body := body w0; accepted := accepted w0 |}.

Definition brokenPipe : WriteOutcome := WriteErr 0 "write: broken pipe".

Definition threeTracked : list (Env * Request) :=
  [ (env ∅ WriteOk, request "GET" "/track");
    (env ∅ WriteOk, request "GET" "/state");
    (env markerPresent WriteOk, request "GET" "/track");
    (env ∅ brokenPipe, request "POST" "/elsewhere");
    (env ∅ WriteOk, request "GET" "/track") ].

(** ** Readings of the specification that the program does not bear out *)

(** A request leaving every metric as it was. *)
Definition leavesMetrics (p p' : Proc) : Prop :=
  successes p' = successes p
  /\ failures p' = failures p
  /\ bytesServed p' = bytesServed p
  /\ serveImageRequestDuration (metrics p') = serveImageRequestDuration (metrics p).

(** The response going out with the header that forbids caching. *)
Definition carriesNoCache (resp : ResponseWriter) : Prop :=
  sentHeader resp !! "Cache-Control" = Some "no-cache, no-store, must-revalidate".

(** ** Accounts of a list of requests *)

(** The registry operations of the requests that reach [serveImage], request
    after request. *)
Fixpoint servedOps (cfg : Config) (reqs : list (Env * Request)) : list MetricOp :=
  match reqs with
  | [] => []
  | (e, r) :: reqs' =>
      (if decide (route cfg (URLPath r) = Some ToServeImage) then imageOps e r else [])
      ++ servedOps cfg reqs'
  end.

(** The GET requests that reach [serveImage], and those that reach
    [serveState]. *)
Fixpoint imageGETs (cfg : Config) (reqs : list (Env * Request)) : nat :=
  match reqs with
  | [] => 0
  | (_, r) :: reqs' =>
      (if decide (route cfg (URLPath r) = Some ToServeImage /\ Method r = "GET")
       then 1 else 0)
      + imageGETs cfg reqs'
  end.

Fixpoint stateGETs (cfg : Config) (reqs : list (Env * Request)) : nat :=
  match reqs with
  | [] => 0
  | (_, r) :: reqs' =>
      (if decide (route cfg (URLPath r) = Some ToServeState /\ Method r = "GET")
       then 1 else 0)
      + stateGETs cfg reqs'
  end.

(** The warnings of the GET requests on the state path whose write failed. *)
Fixpoint stateWarnings (cfg : Config) (reqs : list (Env * Request)) : list string :=
  match reqs with
  | [] => []
  | (e, r) :: reqs' =>
      (if decide (route cfg (URLPath r) = Some ToServeState /\ Method r = "GET")
       then stateWarning e else [])
      ++ stateWarnings cfg reqs'
  end.

(** The times the requests that reach [serveImage] spent in it. *)
Fixpoint imageElapsed (cfg : Config) (reqs : list (Env * Request)) : list Z :=
  match reqs with
  | [] => []
  | (e, r) :: reqs' =>
      (if decide (route cfg (URLPath r) = Some ToServeImage)
       then [(clockExit e - clockEntry e)%Z] else [])
      ++ imageElapsed cfg reqs'
  end.

Definition withConn (o : WriteOutcome) (e : Env) : Env :=
  {| fs := fs e; conn := o; clockEntry := clockEntry e; clockExit := clockExit e |}.

(** ** Starting and stopping the server *)

(** The errors the server's life cycle compares and prints. *)
Inductive error :=
| ErrServerClosed
| DeadlineExceeded
| OtherError (msg : string).

Definition error_text (err : option error) : string :=
  match err with
  | None => "<nil>"
  | Some ErrServerClosed => "http: Server closed"
  | Some DeadlineExceeded => "context deadline exceeded"
  | Some (OtherError msg) => msg
  end.

#[global] Instance error_eq_dec : EqDecision error.
Proof. solve_decision. Defined.

(** How a function of the life cycle ends: it returns, or the process exits. *)
Inductive Completion := Returns | Exits (code : Z).

(** [log.Println] and [log.Fatal] on the process state; [Fatal] prints and
    exits with status 1. *)
Definition logLine (line : string) (p : Proc) : Proc :=
  {| metrics := metrics p;
     serviceLog := serviceLog p ++ [line];
     syscalls := syscalls p |}.

Definition log_Fatal (line : string) (p : Proc) : Completion * Proc :=
  (Exits 1, logLine line p).

(** Starts the http server; [listenAndServe] is what [srv.ListenAndServe()]
    returns when it does. *)
Definition startServer (cfg : Config) (listenAndServe : option error) (p : Proc)
  : Completion * Proc :=
  let p1 := logLine ("INFO http: Server started " ++ listenAddress cfg) p in
  let err := listenAndServe in
  if decide (err ≠ Some ErrServerClosed) then
    log_Fatal ("ERROR " ++ error_text err) p1
  else
    (Returns, p1).

Definition Second : Z := 1000000000.

(** Stops the http server; [Shutdown] is [srv.Shutdown] as a function of the
    time the context allows. *)
Definition stopServer (Shutdown : Z -> option error) (p : Proc) : Proc :=
  let ctx := (8 * Second)%Z in
  let p1 := logLine "INFO http: Server stopping" p in
  match Shutdown ctx with
  | Some _ => logLine "INFO http: Server stopped forcefully" p1
  | None => logLine "INFO http: Server stopped gracefully" p1
  end.

(** ** The life of the process, from the wait for a signal on *)

(** The signals [main] asks to be told of. *)
Inductive Signal := SIGINT | SIGTERM.

(** Modelled from the spec: [srv.Shutdown(ctx)] of the http library, which
    is not among the sources.  It returns nil when the requests in flight
    complete within the time the context allows, and the context's error
    when that time runs out first; [drain] is the time the requests in
    flight need, in nanoseconds like the context's. *)
Definition srv_Shutdown (drain : Z) (ctx : Z) : option error :=
  if decide (drain <= ctx)%Z then None else Some DeadlineExceeded.

Inductive Phase := Serving | ShuttingDown | Exited (code : Z).

(** Where the process is, the phases it has been through, and its state. *)
Record Life := { phase : Phase; history : list Phase; state : Proc }.

(** [main] when it reaches [<-terminateServer]. *)
Definition serving (p : Proc) : Life :=
  {| phase := Serving; history := [Serving]; state := p |}.

(** A signal reaches the channel.  While serving, [main] is waiting on it:
    it takes the signal, calls [stopServer(srv)] and returns, which ends the
    process with status 0.  After that no receive is left in [main]. *)
Definition deliver (drain : Z) (l : Life) (s : Signal) : Life :=
  match phase l with
  | Serving =>
      {| phase := Exited 0;
         history := history l ++ [ShuttingDown; Exited 0];
         state := stopServer (srv_Shutdown drain) (state l) |}
  | _ => l
  end.

Definition main (drain : Z) (signals : list Signal) (p : Proc) : Life :=
  foldl (deliver drain) (serving p) signals.

(** ** More sample inputs *)

Definition mixedTraffic : list (Env * Request) :=
  [ (env markerPresent WriteOk, request "GET" "/state");
    (env ∅ WriteOk, request "GET" "/track");
    (env ∅ brokenPipe, request "GET" "/state");
    (env ∅ brokenPipe, request "GET" "/track");
    (env markerDenied WriteOk, request "POST" "/track");
    (env markerPresent WriteOk, request "DELETE" "/state") ].

Definition stateOnly : list (Env * Request) :=
  [ (env markerPresent WriteOk, request "GET" "/state");
    (env ∅ brokenPipe, request "GET" "/state");
    (env ∅ WriteOk, request "GET" "/metrics");
    (env ∅ WriteOk, request "PUT" "/state") ].

(** The marker present among other entries. *)
Definition crowded : gmap string os.Entry :=
  <["./other" := os.Blocked os.IOFault]> markerPresent.

(** The operations of two GETs on the tracking path, a success and a
    failure, and one way they may interleave. *)
Definition twoTracked : list (Env * Request) :=
  [ (env ∅ WriteOk, request "GET" "/track");
    (env ∅ brokenPipe, request "GET" "/track") ].

Definition interleaved : list MetricOp :=
  [ OpInc "success"; OpInc "failure"; OpObserve 5; OpAdd 42; OpObserve 5 ].

(** * Properties of the handlers *)

Section Equations.

Variable promhttp_Handler : Metrics -> Env -> ResponseWriter -> ResponseWriter.
Variable cfg : Config.

Lemma ServeHTTP_image_other_method e r p :
  route cfg (URLPath r) = Some ToServeImage ->
  Method r ≠ "GET" ->
  ServeHTTP promhttp_Handler cfg e r p
  = (notFoundResponse e, withMetrics (prometheus.Observe (elapsed e) (metrics p)) p).
Proof.
  intros Hr Hm. unfold ServeHTTP, dispatch. rewrite Hr.
  unfold serveImage, defer. case_decide; [|done].
  reflexivity.
Qed.

Lemma ServeHTTP_image_GET e r p :
  route cfg (URLPath r) = Some ToServeImage ->
  Method r = "GET" ->
  ServeHTTP promhttp_Handler cfg e r p
  = (imageResponse e,
     withMetrics (prometheus.Observe (elapsed e) (imageCounted e (metrics p))) p).
Proof.
  intros Hr Hm. unfold ServeHTTP, dispatch. rewrite Hr.
  unfold serveImage, defer, imageCounted. case_decide; [done|].
  destruct e as [f [|n msg] t0 t1]; reflexivity.
Qed.

Lemma ServeHTTP_state_other_method e r p :
  route cfg (URLPath r) = Some ToServeState ->
  Method r ≠ "GET" ->
  ServeHTTP promhttp_Handler cfg e r p = (notFoundResponse e, p).
Proof.
  intros Hr Hm. unfold ServeHTTP, dispatch. rewrite Hr.
  unfold serveState. case_decide; [|done].
  by destruct p.
Qed.

Lemma ServeHTTP_state_GET e r p :
  route cfg (URLPath r) = Some ToServeState ->
  Method r = "GET" ->
  ServeHTTP promhttp_Handler cfg e r p = (stateResponse cfg e, stateProc cfg e p).
Proof.
  intros Hr Hm. unfold ServeHTTP, dispatch. rewrite Hr.
  unfold serveState, stateResponse, stateProc, stateWarning, healthy.
  case_decide; [done|].
  unfold serviceHealthy, os_Stat.
  destruct e as [f [|n msg] t0 t1]; cbn [fs conn];
    destruct (os.Stat f (stateFilePath cfg)) as [[]|err]; cbn;
    rewrite ?app_nil_r; reflexivity.
Qed.

Lemma ServeHTTP_metrics e r p :
  route cfg (URLPath r) = Some ToMetrics ->
  snd (ServeHTTP promhttp_Handler cfg e r p) = p.
Proof.
  intros Hr. unfold ServeHTTP, dispatch. rewrite Hr. by destruct p.
Qed.

Lemma ServeHTTP_no_route e r p :
  route cfg (URLPath r) = None ->
  ServeHTTP promhttp_Handler cfg e r p = (notFoundResponse e, p).
Proof.
  intros Hr. unfold ServeHTTP, dispatch. rewrite Hr. by destruct p.
Qed.

End Equations.

Lemma Value_Inc_same vec label :
  prometheus.Value (<[label := (prometheus.Value vec label + 1)%N]> vec) label
  = (prometheus.Value vec label + 1)%N.
Proof. unfold prometheus.Value at 1. by rewrite lookup_insert_eq. Qed.

Lemma Value_Inc_other vec label label' v :
  label ≠ label' ->
  prometheus.Value (<[label := v]> vec) label' = prometheus.Value vec label'.
Proof. intros Hne. unfold prometheus.Value. by rewrite lookup_insert_ne. Qed.

Lemma length_GIF : length GIF = 42.
Proof. reflexivity. Qed.

(** What a successful GET of the image does to the four readings. *)
Lemma image_success_readings e p :
  conn e = WriteOk ->
  let p' := withMetrics (prometheus.Observe (elapsed e) (imageCounted e (metrics p))) p in
  observations p' = S (observations p)
  /\ successes p' = (successes p + 1)%N
  /\ failures p' = failures p
  /\ bytesServed p' = (bytesServed p + 42)%N.
Proof.
  intros Hc. unfold imageCounted. rewrite Hc. cbn.
  unfold observations, successes, failures, bytesServed, prometheus.Count. cbn.
  rewrite length_app, Value_Inc_same, Value_Inc_other by done.
  cbn. repeat split; lia.
Qed.

(** What a failed GET of the image does to them. *)
Lemma image_failure_readings e p n msg :
  conn e = WriteErr n msg ->
  let p' := withMetrics (prometheus.Observe (elapsed e) (imageCounted e (metrics p))) p in
  observations p' = S (observations p)
  /\ successes p' = successes p
  /\ failures p' = (failures p + 1)%N
  /\ bytesServed p' = bytesServed p.
Proof.
  intros Hc. unfold imageCounted. rewrite Hc. cbn.
  unfold observations, successes, failures, bytesServed, prometheus.Count. cbn.
  rewrite length_app, Value_Inc_same, Value_Inc_other by done.
  cbn. repeat split; lia.
Qed.

(** A request that is not routed to [serveImage] leaves the registry alone. *)
Lemma ServeHTTP_elsewhere_metrics promhttp_Handler cfg e r p :
  route cfg (URLPath r) ≠ Some ToServeImage ->
  metrics (snd (ServeHTTP promhttp_Handler cfg e r p)) = metrics p.
Proof.
  intros Hr. destruct (route cfg (URLPath r)) as [[| |]|] eqn:Hroute.
  - done.
  - destruct (decide (Method r = "GET")) as [Hm|Hm].
    + by rewrite ServeHTTP_state_GET.
    + by rewrite ServeHTTP_state_other_method.
  - by rewrite ServeHTTP_metrics.
  - by rewrite ServeHTTP_no_route.
Qed.

(** [serveImage] on any writer: what it leaves in the process state. *)
Lemma serveImage_proc e r c :
  proc (serveImage e r c).2
  = withMetrics
      (prometheus.Observe (elapsed e)
         (if decide (Method r ≠ "GET") then metrics (proc c)
          else imageCounted e (metrics (proc c))))
      (proc c).
Proof.
  destruct c as [[h [z|] sh b a] [m l s]], e as [f [|n msg] t0 t1];
    unfold serveImage, defer; case_decide; reflexivity.
Qed.

(** ** Sequences of requests *)

Lemma imageResponse_answered e : conn e = WriteOk -> answeredWithImage (imageResponse e).
Proof. intros Hc. unfold answeredWithImage, imageResponse. cbn. by rewrite Hc. Qed.

Section Sequences.

Variable promhttp_Handler : Metrics -> Env -> ResponseWriter -> ResponseWriter.
Variable cfg : Config.

Lemma serve_cons e r reqs p :
  serve promhttp_Handler cfg ((e, r) :: reqs) p
  = (fst (ServeHTTP promhttp_Handler cfg e r p)
       :: fst (serve promhttp_Handler cfg reqs (snd (ServeHTTP promhttp_Handler cfg e r p))),
     snd (serve promhttp_Handler cfg reqs (snd (ServeHTTP promhttp_Handler cfg e r p)))).
Proof.
  simpl. by destruct (serve promhttp_Handler cfg reqs _).
Qed.

Lemma serve_observations reqs : forall p,
  observations (snd (serve promhttp_Handler cfg reqs p))
  = observations p + imageInvocations cfg reqs.
Proof.
  induction reqs as [|[e r] reqs IH]; intros p.
  - cbn. lia.
  - rewrite serve_cons. cbn [snd imageInvocations]. rewrite IH.
    case_decide as Hr.
    + destruct (decide (Method r = "GET")) as [Hm|Hm].
      * rewrite ServeHTTP_image_GET by done.
        unfold observations, prometheus.Count. cbn. rewrite length_app. cbn.
        unfold imageCounted. destruct (error_of (conn e)); cbn; lia.
      * rewrite ServeHTTP_image_other_method by done.
        unfold observations, prometheus.Count. cbn. rewrite length_app. cbn. lia.
    + unfold observations. rewrite ServeHTTP_elsewhere_metrics by done. lia.
Qed.

Lemma serve_successful_GETs reqs : forall p,
  Forall (fun er : Env * Request =>
            route cfg (URLPath er.2) = Some ToServeImage ->
            Method er.2 = "GET" /\ conn er.1 = WriteOk) reqs ->
  let out := serve promhttp_Handler cfg reqs p in
  let n := imageInvocations cfg reqs in
  observations out.2 = observations p + n
  /\ successes out.2 = (successes p + N.of_nat n)%N
  /\ failures out.2 = failures p
  /\ bytesServed out.2 = (bytesServed p + N.of_nat n * N.of_nat (length GIF))%N
  /\ Forall2 (fun (er : Env * Request) resp =>
                route cfg (URLPath er.2) = Some ToServeImage ->
                answeredWithImage resp) reqs out.1.
Proof.
  induction reqs as [|[e r] reqs IH]; intros p Hall.
  - cbn. repeat split; try lia. constructor.
  - apply Forall_cons in Hall as [Hhd Htl]. cbn [fst snd] in Hhd.
    rewrite serve_cons. cbn [fst snd imageInvocations].
    specialize (IH (snd (ServeHTTP promhttp_Handler cfg e r p)) Htl).
    cbn zeta in IH. destruct IH as (Ho & Hs & Hf & Hb & Hresp).
    rewrite Ho, Hs, Hf, Hb. rewrite length_GIF. clear Ho Hs Hf Hb.
    case_decide as Hr.
    + destruct (Hhd Hr) as [Hm Hc].
      rewrite ServeHTTP_image_GET in Hresp |- * by done. cbn [fst snd] in Hresp |- *.
      destruct (image_success_readings e p Hc) as (Ho & Hs & Hf & Hb).
      rewrite Ho, Hs, Hf, Hb.
      repeat split; try lia.
      constructor; [|done]. intros _. by apply imageResponse_answered.
    + assert (Hm := ServeHTTP_elsewhere_metrics promhttp_Handler cfg e r p Hr).
      unfold observations, successes, failures, bytesServed. rewrite Hm.
      repeat split; try lia.
      constructor; [|done]. cbn [snd]. intros Hr'. congruence.
Qed.

End Sequences.

(** ** Invocations that overlap: the order does not show *)

Lemma serveImage_performs e r c :
  metrics (proc (serveImage e r c).2)
  = foldl perform (metrics (proc c)) (imageOps e r).
Proof.
  rewrite serveImage_proc. unfold imageOps, imageCounted. cbn [metrics withMetrics].
  case_decide; [reflexivity|].
  destruct (error_of (conn e)); reflexivity.
Qed.

Lemma tally_permutation f ops ops' :
  ops ≡ₚ ops' -> tally f ops = tally f ops'.
Proof.
  induction 1 as [|o ops ops' _ IH|o o' ops|ops ops1 ops2 _ IH1 _ IH2]; cbn.
  - reflexivity.
  - unfold tally in IH. by rewrite IH.
  - lia.
  - congruence.
Qed.

Lemma perform_readings ops : forall m label,
  let m' := foldl perform m ops in
  N.of_nat (prometheus.Count m') = (N.of_nat (prometheus.Count m) + tally observed ops)%N
  /\ serveImageRequestsSize m' = (serveImageRequestsSize m + tally added ops)%N
  /\ prometheus.Value (serveImageRequestsCount m') label
     = (prometheus.Value (serveImageRequestsCount m) label + tally (bumped label) ops)%N.
Proof.
  induction ops as [|o ops IH]; intros m label; cbn zeta.
  - cbn. repeat split; lia.
  - cbn [foldl]. destruct (IH (perform m o) label) as (Hc & Hs & Hv).
    rewrite Hc, Hs, Hv. clear IH Hc Hs Hv.
    unfold tally. destruct o as [v|v|label']; cbn.
    + unfold prometheus.Count. cbn. rewrite length_app. cbn. repeat split; lia.
    + repeat split; lia.
    + case_decide as Hl.
      * subst label'. rewrite Value_Inc_same. repeat split; lia.
      * rewrite Value_Inc_other by done. repeat split; lia.
Qed.

(** Whatever the order in which the operations reach the registry, the
    count of the summary, the byte counter and every labelled counter read
    the same. *)
Lemma readings_any_schedule ops ops' m label :
  ops ≡ₚ ops' ->
  prometheus.Count (foldl perform m ops) = prometheus.Count (foldl perform m ops')
  /\ serveImageRequestsSize (foldl perform m ops)
     = serveImageRequestsSize (foldl perform m ops')
  /\ prometheus.Value (serveImageRequestsCount (foldl perform m ops)) label
     = prometheus.Value (serveImageRequestsCount (foldl perform m ops')) label.
Proof.
  intros Hp.
  destruct (perform_readings ops m label) as (Hc & Hs & Hv).
  destruct (perform_readings ops' m label) as (Hc' & Hs' & Hv').
  cbn zeta in *.
  rewrite (tally_permutation observed _ _ Hp) in Hc.
  rewrite (tally_permutation added _ _ Hp) in Hs.
  rewrite (tally_permutation (bumped label) _ _ Hp) in Hv.
  repeat split; [lia | congruence | congruence].
Qed.

(** * The claims *)

(** C1: when the requests served are such that every one routed to the
    tracking path is a GET whose body write succeeds, and N of them are
    routed there, then from process start the summary holds N observations,
    the success counter reads N, the failure counter 0 and the byte counter
    N times the length of the image; each of those requests is answered with
    status 200, content type image/gif and the whole image. *)
Theorem tracking_GETs_counted
    (promhttp_Handler : Metrics -> Env -> ResponseWriter -> ResponseWriter)
    (cfg : Config) (N : nat) (reqs : list (Env * Request)) :
  imageInvocations cfg reqs = N ->
  Forall (fun er : Env * Request =>
            route cfg (URLPath er.2) = Some ToServeImage ->
            Method er.2 = "GET" /\ conn er.1 = WriteOk) reqs ->
  let out := serve promhttp_Handler cfg reqs initProc in
  observations out.2 = N
  /\ successes out.2 = N.of_nat N
  /\ failures out.2 = 0%N
  /\ bytesServed out.2 = (N.of_nat N * N.of_nat (length GIF))%N
  /\ Forall2 (fun (er : Env * Request) resp =>
                route cfg (URLPath er.2) = Some ToServeImage ->
                status resp = Some 200%Z
                /\ sentHeader resp !! "Content-Type" = Some "image/gif"
                /\ body resp = GIF
                /\ accepted resp = length GIF) reqs out.1.
Proof.
  intros HN Hall.
  destruct (serve_successful_GETs promhttp_Handler cfg reqs initProc Hall)
    as (Ho & Hs & Hf & Hb & Hresp).
  rewrite HN in Ho, Hs, Hb. cbn zeta.
  rewrite Ho, Hs, Hf, Hb. repeat split; try done.
Qed.

Lemma tracking_GETs_counted_witness :
  let out := serve blankExposition defaultConfig threeTracked initProc in
  observations out.2 = 3
  /\ successes out.2 = 3%N
  /\ failures out.2 = 0%N
  /\ bytesServed out.2 = 126%N
  /\ Forall2 (fun (er : Env * Request) resp =>
                route defaultConfig (URLPath er.2) = Some ToServeImage ->
                status resp = Some 200%Z
                /\ sentHeader resp !! "Content-Type" = Some "image/gif"
                /\ body resp = GIF
                /\ accepted resp = length GIF) threeTracked out.1.
Proof.
  apply (tracking_GETs_counted blankExposition defaultConfig 3 threeTracked).
  - reflexivity.
  - unfold threeTracked.
    repeat match goal with
           | |- Forall _ (_ :: _) => constructor
           | |- Forall _ [] => constructor
           end;
      cbn [fst snd]; intros H;
      first [ split; reflexivity | vm_compute in H; discriminate H ].
Defined.

(** C4: every invocation of [serveImage] appends exactly one observation,
    the time between entry and exit, to the summary, whatever the method,
    the outcome of the write and the state of the writer, so whichever
    return it takes; hence after any requests have been served the
    summary's count has grown by the number of them that were routed to
    [serveImage], and from process start it equals that number. *)
Theorem serveImage_observes_once
    (promhttp_Handler : Metrics -> Env -> ResponseWriter -> ResponseWriter)
    (cfg : Config) :
  (forall e r c,
     serveImageRequestDuration (metrics (proc (serveImage e r c).2))
     = (serveImageRequestDuration (metrics (proc c))
          ++ [(clockExit e - clockEntry e)%Z])%list)
  /\ (forall reqs p,
        observations (serve promhttp_Handler cfg reqs p).2
        = observations p + imageInvocations cfg reqs)
  /\ (forall reqs,
        observations (serve promhttp_Handler cfg reqs initProc).2
        = imageInvocations cfg reqs).
Proof.
  split; [|split].
  - intros e r c. rewrite serveImage_proc. cbn.
    unfold elapsed, imageCounted.
    case_decide; [done|]. by destruct (error_of (conn e)).
  - intros reqs p. apply serve_observations.
  - intros reqs. by rewrite serve_observations.
Qed.

(** C5: a GET on the tracking path whose body write fails adds one to the
    failure counter and leaves the byte counter and the success counter as
    they were; the error goes no further: nothing is logged, and the process
    state afterwards is the same whatever the error was. *)
Theorem image_write_failure
    (promhttp_Handler : Metrics -> Env -> ResponseWriter -> ResponseWriter)
    (cfg : Config) (e : Env) (r : Request) (p : Proc) (n : nat) (msg : string) :
  route cfg (URLPath r) = Some ToServeImage ->
  Method r = "GET" ->
  conn e = WriteErr n msg ->
  let out := ServeHTTP promhttp_Handler cfg e r p in
  failures out.2 = (failures p + 1)%N
  /\ bytesServed out.2 = bytesServed p
  /\ successes out.2 = successes p
  /\ serviceLog out.2 = serviceLog p
  /\ forall e' n' msg',
       fs e' = fs e -> clockEntry e' = clockEntry e -> clockExit e' = clockExit e ->
       conn e' = WriteErr n' msg' ->
       (ServeHTTP promhttp_Handler cfg e' r p).2 = out.2.
Proof.
  intros Hr Hm Hc. cbn zeta.
  rewrite ServeHTTP_image_GET by done. cbn [snd].
  destruct (image_failure_readings e p n msg Hc) as (_ & Hs & Hf & Hb).
  repeat split; try done.
  intros e' n' msg' _ H0 H1 Hc'.
  rewrite ServeHTTP_image_GET by done. cbn [snd].
  unfold imageCounted, elapsed. by rewrite Hc, Hc', H0, H1.
Qed.

Lemma image_write_failure_witness :
  let out := ServeHTTP blankExposition defaultConfig
               (env ∅ brokenPipe) (request "GET" "/track") initProc in
  failures out.2 = 1%N
  /\ bytesServed out.2 = 0%N
  /\ successes out.2 = 0%N
  /\ serviceLog out.2 = []
  /\ forall e' n' msg',
       fs e' = ∅ -> clockEntry e' = 100%Z -> clockExit e' = 105%Z ->
       conn e' = WriteErr n' msg' ->
       (ServeHTTP blankExposition defaultConfig e' (request "GET" "/track") initProc).2
       = out.2.
Proof.
  apply (image_write_failure blankExposition defaultConfig
           (env ∅ brokenPipe) (request "GET" "/track") initProc
           0 "write: broken pipe"); reflexivity.
Defined.

(** C6: [serviceHealthy] answers true exactly when the stat of the
    configured marker path succeeds; every error of the stat, whether the
    file is absent, permission is denied or the I/O fails, gives false; the
    answer is always a boolean, and the check leaves the writer, the
    registry and the service log as they were. *)
Theorem serviceHealthy_collapses_errors (cfg : Config) (e : Env) (c : Ctx) :
  let out := serviceHealthy cfg e c in
  let stat := os.Stat (fs e) (stateFilePath cfg) in
  (out.1 = true <-> stat = inl tt)
  /\ (forall err, stat = inr err -> out.1 = false)
  /\ (fs e !! stateFilePath cfg = None ->
      stat = inr os.ENOENT /\ out.1 = false)
  /\ (fs e !! stateFilePath cfg = Some (os.Blocked os.PermissionDenied) ->
      stat = inr os.EACCES /\ out.1 = false)
  /\ (fs e !! stateFilePath cfg = Some (os.Blocked os.IOFault) ->
      stat = inr os.EIO /\ out.1 = false)
  /\ w out.2 = w c
  /\ metrics (proc out.2) = metrics (proc c)
  /\ serviceLog (proc out.2) = serviceLog (proc c).
Proof.
  destruct c as [w0 p].
  cbv [serviceHealthy os_Stat mbind mret Handler_bind Handler_ret onProc w proc
       fst snd metrics serviceLog].
  unfold os.Stat.
  destruct (fs e !! stateFilePath cfg) as [[|[|]]|]; cbn;
    repeat split; try done.
Qed.

(** C9: the image is 42 bytes that begin with the signature GIF89a; it is a
    constant of the program, which no handler assigns, so a GET on the
    tracking path whose write succeeds is answered under the content type
    image/gif with exactly these 42 bytes and adds exactly 42 to the byte
    counter. *)
Theorem GIF_is_the_payload
    (promhttp_Handler : Metrics -> Env -> ResponseWriter -> ResponseWriter)
    (cfg : Config) (e : Env) (r : Request) (p : Proc) :
  route cfg (URLPath r) = Some ToServeImage ->
  Method r = "GET" ->
  conn e = WriteOk ->
  let out := ServeHTTP promhttp_Handler cfg e r p in
  length GIF = 42
  /\ take 6 GIF = list_byte_of_string "GIF89a"
  /\ sentHeader out.1 !! "Content-Type" = Some "image/gif"
  /\ body out.1 = GIF
  /\ accepted out.1 = 42
  /\ bytesServed out.2 = (bytesServed p + 42)%N.
Proof.
  intros Hr Hm Hc. cbn zeta.
  rewrite ServeHTTP_image_GET by done. cbn [fst snd].
  destruct (image_success_readings e p Hc) as (_ & _ & _ & Hb).
  destruct (imageResponse_answered e Hc) as (_ & Hct & Hbody & Hacc).
  repeat split; try done.
Qed.

Lemma GIF_is_the_payload_witness :
  let out := ServeHTTP blankExposition defaultConfig
               (env ∅ WriteOk) (request "GET" "/track") initProc in
  length GIF = 42
  /\ take 6 GIF = list_byte_of_string "GIF89a"
  /\ sentHeader out.1 !! "Content-Type" = Some "image/gif"
  /\ body out.1 = GIF
  /\ accepted out.1 = 42
  /\ bytesServed out.2 = 42%N.
Proof.
  apply (GIF_is_the_payload blankExposition defaultConfig
           (env ∅ WriteOk) (request "GET" "/track") initProc); reflexivity.
Defined.

(** C10: a request on the state path with another method than GET is
    answered 404 and [os.Stat] is not called: the record of file system
    queries is as before, the whole process state is, and the response and
    the state are the same whatever the file system holds. *)
Theorem state_other_method_skips_stat
    (promhttp_Handler : Metrics -> Env -> ResponseWriter -> ResponseWriter)
    (cfg : Config) (e : Env) (r : Request) (p : Proc) :
  route cfg (URLPath r) = Some ToServeState ->
  Method r ≠ "GET" ->
  let out := ServeHTTP promhttp_Handler cfg e r p in
  status out.1 = Some 404%Z
  /\ syscalls out.2 = syscalls p
  /\ out.2 = p
  /\ forall f, ServeHTTP promhttp_Handler cfg (withFs f e) r p = out.
Proof.
  intros Hr Hm. cbn zeta.
  rewrite ServeHTTP_state_other_method by done.
  repeat split. intros f.
  by rewrite ServeHTTP_state_other_method.
Qed.

Lemma state_other_method_skips_stat_witness :
  let out := ServeHTTP blankExposition defaultConfig
               (env ∅ WriteOk) (request "POST" "/state") initProc in
  status out.1 = Some 404%Z
  /\ syscalls out.2 = []
  /\ out.2 = initProc
  /\ forall f, ServeHTTP blankExposition defaultConfig
                 (withFs f (env ∅ WriteOk)) (request "POST" "/state") initProc
               = out.
Proof.
  apply (state_other_method_skips_stat blankExposition defaultConfig
           (env ∅ WriteOk) (request "POST" "/state") initProc).
  - reflexivity.
  - discriminate.
Defined.

(** C2: a GET on the state path is answered 200 with the body "OK"
    (2 bytes) when the configured marker path exists at the time of the
    request, which the program finds out by a stat of it: the marker is
    there and the stat succeeds; it is answered 503 with the body "Error 503
    (Service not available)" (33 bytes) otherwise.  Nothing of earlier
    requests enters the answer, so when the marker comes or goes between two
    requests in a row, the second is answered by what it finds. *)
Theorem state_GET_by_stat
    (promhttp_Handler : Metrics -> Env -> ResponseWriter -> ResponseWriter)
    (cfg : Config) (e : Env) (r : Request) (p : Proc) :
  route cfg (URLPath r) = Some ToServeState ->
  Method r = "GET" ->
  let resp := (ServeHTTP promhttp_Handler cfg e r p).1 in
  let OK := list_byte_of_string "OK" in
  let unavailable := list_byte_of_string "Error 503 (Service not available)" in
  length OK = 2 /\ length unavailable = 33
  /\ (os.Stat (fs e) (stateFilePath cfg) = inl tt ->
        status resp = Some 200%Z /\ body resp = OK)
  /\ (forall err, os.Stat (fs e) (stateFilePath cfg) = inr err ->
        status resp = Some 503%Z /\ body resp = unavailable)
  /\ (forall p', (ServeHTTP promhttp_Handler cfg e r p').1 = resp)
  /\ (forall e' r' err,
        route cfg (URLPath r') = Some ToServeState ->
        Method r' = "GET" ->
        os.Stat (fs e) (stateFilePath cfg) = inl tt ->
        os.Stat (fs e') (stateFilePath cfg) = inr err ->
        let resps := (serve promhttp_Handler cfg [(e, r); (e', r')] p).1 in
        map status resps = [Some 200%Z; Some 503%Z]
        /\ map body resps = [OK; unavailable])
  /\ (forall e' r' err,
        route cfg (URLPath r') = Some ToServeState ->
        Method r' = "GET" ->
        os.Stat (fs e) (stateFilePath cfg) = inr err ->
        os.Stat (fs e') (stateFilePath cfg) = inl tt ->
        let resps := (serve promhttp_Handler cfg [(e, r); (e', r')] p).1 in
        map status resps = [Some 503%Z; Some 200%Z]
        /\ map body resps = [unavailable; OK]).
Proof.
  intros Hr Hm. cbn zeta.
  rewrite ServeHTTP_state_GET by done. cbn [fst].
  split; [reflexivity|]. split; [reflexivity|].
  split; [|split; [|split; [|split]]].
  - intros Hok. unfold stateResponse, healthy. rewrite Hok. by cbn.
  - intros err Herr. unfold stateResponse, healthy. rewrite Herr. by cbn.
  - intros p'. by rewrite ServeHTTP_state_GET.
  - intros e' r' err Hr' Hm' Hok Herr.
    rewrite !serve_cons. rewrite !ServeHTTP_state_GET by done. cbn.
    unfold healthy. rewrite Hok, Herr. by cbn.
  - intros e' r' err Hr' Hm' Herr Hok.
    rewrite !serve_cons. rewrite !ServeHTTP_state_GET by done. cbn.
    unfold healthy. rewrite Hok, Herr. by cbn.
Qed.

Lemma state_GET_by_stat_witness :
  let first := env markerPresent WriteOk in
  let second := env ∅ WriteOk in
  let resps := (serve blankExposition defaultConfig
                  [(first, request "GET" "/state"); (second, request "GET" "/state")]
                  initProc).1 in
  map status resps = [Some 200%Z; Some 503%Z]
  /\ map body resps = [list_byte_of_string "OK";
                       list_byte_of_string "Error 503 (Service not available)"].
Proof.
  cbn zeta.
  apply (state_GET_by_stat blankExposition defaultConfig
           (env markerPresent WriteOk) (request "GET" "/state") initProc
           eq_refl eq_refl)
    with (err := os.ENOENT); reflexivity.
Defined.

Lemma deliver_after_serving drain signals : forall l,
  phase l ≠ Serving -> foldl (deliver drain) l signals = l.
Proof.
  induction signals as [|s signals IH]; intros l Hl; [reflexivity|].
  cbn [foldl]. unfold deliver at 2.
  destruct (phase l) eqn:Hp; [done | |]; apply IH; by rewrite Hp.
Qed.

(** C7: once a termination signal has been received, [main] stops the
    server with a bound of exactly 8 seconds: when the requests in flight
    complete within 8 seconds the line "stopped gracefully" is logged after
    the stopping line, otherwise the line "stopped forcefully", and the two
    lines differ; in both cases the process then exits, with status 0.  The
    process leaves serving for shutting down once, whatever signals follow,
    and never serves again; without a signal it goes on serving. *)
Theorem shutdown_on_signal
    (drain : Z) (s : Signal) (more : list Signal) (p : Proc) :
  let out := main drain (s :: more) p in
  let stopping := "INFO http: Server stopping" in
  let graceful := "INFO http: Server stopped gracefully" in
  let forceful := "INFO http: Server stopped forcefully" in
  graceful ≠ forceful
  /\ ((drain <= 8 * 1000000000)%Z ->
      serviceLog (state out) = (serviceLog p ++ [stopping; graceful])%list)
  /\ ((8 * 1000000000 < drain)%Z ->
      serviceLog (state out) = (serviceLog p ++ [stopping; forceful])%list)
  /\ phase out = Exited 0
  /\ history out = [Serving; ShuttingDown; Exited 0]
  /\ out = main drain [s] p
  /\ (forall signals l, phase l ≠ Serving ->
        phase (foldl (deliver drain) l signals) ≠ Serving
        /\ foldl (deliver drain) l signals = l)
  /\ main drain [] p = serving p.
Proof.
  cbn zeta. unfold main. cbn [foldl].
  assert (Hgone : phase (deliver drain (serving p) s) ≠ Serving) by done.
  rewrite (deliver_after_serving drain more _ Hgone).
  split; [done|]. split; [|split; [|split; [|split; [|split; [|split]]]]].
  - intros Hd. unfold deliver, serving, stopServer, srv_Shutdown, logLine.
    cbn -[Z.mul]. change (8 * Second)%Z with (8 * 1000000000)%Z.
    rewrite decide_True by done. cbn. by rewrite <- app_assoc.
  - intros Hd. unfold deliver, serving, stopServer, srv_Shutdown, logLine.
    cbn -[Z.mul]. change (8 * Second)%Z with (8 * 1000000000)%Z.
    rewrite decide_False by lia. cbn. by rewrite <- app_assoc.
  - reflexivity.
  - reflexivity.
  - reflexivity.
  - intros signals l Hl. by rewrite deliver_after_serving.
  - reflexivity.
Qed.

(** ** Where the program departs from the wording *)

(** A POST on the tracking path is answered 404 and the summary has taken an
    observation. *)
Lemma tracking_POST_is_timed :
  let out := ServeHTTP blankExposition defaultConfig
               (env ∅ WriteOk) (request "POST" "/track") initProc in
  route defaultConfig "/track" = Some ToServeImage
  /\ status out.1 = Some 404%Z
  /\ observations initProc = 0
  /\ observations out.2 = 1
  /\ ~ leavesMetrics initProc out.2.
Proof.
  cbn zeta. repeat split.
  intros (_ & _ & _ & Hd). vm_compute in Hd. discriminate Hd.
Qed.

(** C3, amended: a request on the tracking path or the state path with
    another method than GET is answered 404 and leaves the success counter,
    the failure counter and the byte counter as they were; on the state path
    the summary is left as it was too, on the tracking path the deferred
    timing of [serveImage] adds its one observation. *)
Theorem other_method_404
    (promhttp_Handler : Metrics -> Env -> ResponseWriter -> ResponseWriter)
    (cfg : Config) (e : Env) (r : Request) (p : Proc) :
  route cfg (URLPath r) = Some ToServeImage \/ route cfg (URLPath r) = Some ToServeState ->
  Method r ≠ "GET" ->
  let out := ServeHTTP promhttp_Handler cfg e r p in
  status out.1 = Some 404%Z
  /\ successes out.2 = successes p
  /\ failures out.2 = failures p
  /\ serveImageRequestsCount (metrics out.2) = serveImageRequestsCount (metrics p)
  /\ bytesServed out.2 = bytesServed p
  /\ (route cfg (URLPath r) = Some ToServeState -> leavesMetrics p out.2)
  /\ (route cfg (URLPath r) = Some ToServeImage ->
        serveImageRequestDuration (metrics out.2)
        = (serveImageRequestDuration (metrics p)
             ++ [(clockExit e - clockEntry e)%Z])%list).
Proof.
  intros [Hr|Hr] Hm; cbn zeta.
  - rewrite ServeHTTP_image_other_method by done.
    repeat split; try done; congruence.
  - rewrite ServeHTTP_state_other_method by done.
    repeat split; try done; congruence.
Qed.

Lemma other_method_404_witness :
  let out := ServeHTTP blankExposition defaultConfig
               (env ∅ WriteOk) (request "POST" "/track") initProc in
  status out.1 = Some 404%Z
  /\ successes out.2 = 0%N
  /\ failures out.2 = 0%N
  /\ bytesServed out.2 = 0%N
  /\ serveImageRequestDuration (metrics out.2) = [5%Z].
Proof.
  cbn zeta.
  destruct (other_method_404 blankExposition defaultConfig
              (env ∅ WriteOk) (request "POST" "/track") initProc)
    as (Hst & Hs & Hf & _ & Hb & _ & Hd).
  - left. reflexivity.
  - discriminate.
  - exact (conj Hst (conj Hs (conj Hf (conj Hb (Hd eq_refl))))).
Defined.

(** The 404 that answers a POST, on the tracking path and on the state
    path, goes out without a Cache-Control header. *)
Lemma POST_404_without_cache_control :
  let track := (ServeHTTP blankExposition defaultConfig
                  (env ∅ WriteOk) (request "POST" "/track") initProc).1 in
  let state := (ServeHTTP blankExposition defaultConfig
                  (env ∅ WriteOk) (request "POST" "/state") initProc).1 in
  route defaultConfig "/track" = Some ToServeImage
  /\ route defaultConfig "/state" = Some ToServeState
  /\ status track = Some 404%Z
  /\ sentHeader track !! "Cache-Control" = None
  /\ ~ carriesNoCache track
  /\ status state = Some 404%Z
  /\ sentHeader state !! "Cache-Control" = None
  /\ ~ carriesNoCache state.
Proof.
  cbn zeta. repeat split; try reflexivity; intros H; vm_compute in H; discriminate H.
Qed.

(** C8, amended: every response to a GET on the tracking path and on the
    state path goes out with the header Cache-Control: no-cache, no-store,
    must-revalidate, whatever the health and whatever becomes of the write. *)
Theorem GET_carries_no_cache
    (promhttp_Handler : Metrics -> Env -> ResponseWriter -> ResponseWriter)
    (cfg : Config) (e : Env) (r : Request) (p : Proc) :
  route cfg (URLPath r) = Some ToServeImage \/ route cfg (URLPath r) = Some ToServeState ->
  Method r = "GET" ->
  sentHeader (ServeHTTP promhttp_Handler cfg e r p).1 !! "Cache-Control"
  = Some "no-cache, no-store, must-revalidate".
Proof.
  intros [Hr|Hr] Hm.
  - by rewrite ServeHTTP_image_GET.
  - by rewrite ServeHTTP_state_GET.
Qed.

Lemma GET_carries_no_cache_witness :
  carriesNoCache (ServeHTTP blankExposition defaultConfig
                    (env markerDenied brokenPipe) (request "GET" "/state") initProc).1.
Proof.
  apply (GET_carries_no_cache blankExposition defaultConfig
           (env markerDenied brokenPipe) (request "GET" "/state") initProc).
  - right. reflexivity.
  - reflexivity.
Defined.


(** * Further properties of the program *)

(** ** The process state after one request and after many *)

Section Accounts.

Variable promhttp_Handler : Metrics -> Env -> ResponseWriter -> ResponseWriter.
Variable cfg : Config.

(** The registry after a request is the registry before it with the
    operations of [serveImage] performed, when the request reaches it. *)
Lemma ServeHTTP_metrics_ops e r p :
  metrics (ServeHTTP promhttp_Handler cfg e r p).2
  = foldl perform (metrics p)
      (if decide (route cfg (URLPath r) = Some ToServeImage) then imageOps e r else []).
Proof.
  case_decide as Hr.
  - destruct (decide (Method r = "GET")) as [Hm|Hm].
    + rewrite ServeHTTP_image_GET by done. cbn [snd metrics withMetrics].
      unfold imageOps, imageCounted. case_decide; [done|].
      destruct (error_of (conn e)); reflexivity.
    + rewrite ServeHTTP_image_other_method by done. cbn [snd metrics withMetrics].
      unfold imageOps. case_decide; [reflexivity|done].
  - by apply ServeHTTP_elsewhere_metrics.
Qed.

Lemma serve_metrics_ops reqs : forall p,
  metrics (serve promhttp_Handler cfg reqs p).2
  = foldl perform (metrics p) (servedOps cfg reqs).
Proof.
  induction reqs as [|[e r] reqs IH]; intros p; [reflexivity|].
  rewrite serve_cons. cbn [snd servedOps]. rewrite IH, ServeHTTP_metrics_ops.
  by rewrite foldl_app.
Qed.

(** The service log and the record of stat calls after a request. *)
Lemma ServeHTTP_log_stat e r p :
  let out := ServeHTTP promhttp_Handler cfg e r p in
  let stateGET := route cfg (URLPath r) = Some ToServeState /\ Method r = "GET" in
  serviceLog out.2
  = (serviceLog p ++ if decide stateGET then stateWarning e else [])%list
  /\ syscalls out.2
     = (syscalls p ++ if decide stateGET then [SysStat (stateFilePath cfg)] else [])%list.
Proof.
  cbn zeta. case_decide as Hs.
  - destruct Hs as [Hr Hm]. by rewrite ServeHTTP_state_GET.
  - rewrite !app_nil_r.
    destruct (route cfg (URLPath r)) as [[| |]|] eqn:Hr.
    + destruct (decide (Method r = "GET")) as [Hm|Hm].
      * by rewrite ServeHTTP_image_GET.
      * by rewrite ServeHTTP_image_other_method.
    + assert (Hm : Method r ≠ "GET") by (intros Hm; by apply Hs).
      by rewrite ServeHTTP_state_other_method.
    + by rewrite ServeHTTP_metrics.
    + by rewrite ServeHTTP_no_route.
Qed.

Lemma serve_log_stat reqs : forall p,
  let out := serve promhttp_Handler cfg reqs p in
  serviceLog out.2 = (serviceLog p ++ stateWarnings cfg reqs)%list
  /\ syscalls out.2
     = (syscalls p ++ replicate (stateGETs cfg reqs) (SysStat (stateFilePath cfg)))%list.
Proof.
  induction reqs as [|[e r] reqs IH]; intros p; cbn zeta.
  - cbn. by rewrite !app_nil_r.
  - rewrite serve_cons. cbn [snd stateWarnings stateGETs].
    destruct (IH (ServeHTTP promhttp_Handler cfg e r p).2) as [Hl Hs].
    destruct (ServeHTTP_log_stat e r p) as [Hl1 Hs1]. cbn zeta in *.
    rewrite Hl, Hs, Hl1, Hs1, <- !app_assoc.
    split; [reflexivity|]. f_equal.
    case_decide; [reflexivity|]. by rewrite app_nil_l.
Qed.

End Accounts.

Lemma tally_app f ops ops' :
  tally f (ops ++ ops') = (tally f ops + tally f ops')%N.
Proof.
  unfold tally. induction ops as [|o ops IH]; cbn; [reflexivity|].
  rewrite IH. lia.
Qed.

(** The tallies of the operations of the requests that reach [serveImage]. *)
Lemma servedOps_tallies cfg reqs :
  tally added (servedOps cfg reqs)
  = (42 * tally (bumped "success") (servedOps cfg reqs))%N
  /\ (tally (bumped "success") (servedOps cfg reqs)
      + tally (bumped "failure") (servedOps cfg reqs))%N
     = N.of_nat (imageGETs cfg reqs)
  /\ tally observed (servedOps cfg reqs) = N.of_nat (imageInvocations cfg reqs).
Proof.
  induction reqs as [|[e r] reqs (IHa & IHb & IHc)]; [done|].
  cbn [servedOps imageGETs imageInvocations]. rewrite !tally_app, IHa, IHc.
  rewrite !Nat2N.inj_add, <- IHb. clear IHa IHb IHc.
  unfold imageOps.
  repeat case_decide; try tauto;
    try destruct (error_of (conn e));
    unfold tally; cbn; repeat split;
    repeat (case_decide; try congruence); lia.
Qed.

Lemma servedOps_none cfg reqs :
  imageInvocations cfg reqs = 0 -> servedOps cfg reqs = [].
Proof.
  induction reqs as [|[e r] reqs IH]; [done|].
  cbn [imageInvocations servedOps]. case_decide; [lia|].
  intros Hn. by rewrite IH by lia.
Qed.

Lemma tally_bumped_elsewhere cfg reqs label :
  label ≠ "success" -> label ≠ "failure" ->
  tally (bumped label) (servedOps cfg reqs) = 0%N.
Proof.
  intros Hs Hf. induction reqs as [|[e r] reqs IH]; [done|].
  cbn [servedOps]. rewrite tally_app, IH. unfold imageOps.
  repeat case_decide; try destruct (error_of (conn e));
    unfold tally; cbn; repeat (case_decide; try congruence); lia.
Qed.

Lemma imageGETs_le cfg reqs : imageGETs cfg reqs <= imageInvocations cfg reqs.
Proof.
  induction reqs as [|[e r] reqs IH]; [done|].
  cbn [imageGETs imageInvocations]. repeat case_decide; try tauto; lia.
Qed.

(** X1: a GET on the state path whose write fails puts one line, WARNING
    and the error, in the service log and leaves the registry alone; the
    status, the headers and the body handed over are those of the same
    request with a write that succeeds, which logs nothing. *)
Theorem state_write_failure_warns
    (promhttp_Handler : Metrics -> Env -> ResponseWriter -> ResponseWriter)
    (cfg : Config) (e : Env) (r : Request) (p : Proc) (n : nat) (msg : string) :
  route cfg (URLPath r) = Some ToServeState ->
  Method r = "GET" ->
  conn e = WriteErr n msg ->
  let out := ServeHTTP promhttp_Handler cfg e r p in
  let ok := ServeHTTP promhttp_Handler cfg (withConn WriteOk e) r p in
  serviceLog out.2 = (serviceLog p ++ [("WARNING " ++ msg)%string])%list
  /\ serviceLog ok.2 = serviceLog p
  /\ metrics out.2 = metrics p
  /\ status out.1 = status ok.1
  /\ sentHeader out.1 = sentHeader ok.1
  /\ body out.1 = body ok.1.
Proof.
  intros Hr Hm Hc. cbn zeta. rewrite !ServeHTTP_state_GET by done.
  unfold stateProc, stateWarning. cbn. rewrite Hc. cbn.
  by rewrite app_nil_r.
Qed.

Lemma state_write_failure_warns_witness :
  let out := ServeHTTP blankExposition defaultConfig
               (env markerPresent brokenPipe) (request "GET" "/state") initProc in
  serviceLog out.2 = ["WARNING write: broken pipe"]
  /\ metrics out.2 = initMetrics
  /\ status out.1 = Some 200%Z.
Proof.
  cbn zeta.
  destruct (state_write_failure_warns blankExposition defaultConfig
              (env markerPresent brokenPipe) (request "GET" "/state") initProc
              0 "write: broken pipe" eq_refl eq_refl eq_refl)
    as (Hl & _ & Hm & Hs & _).
  exact (conj Hl (conj Hm Hs)).
Defined.

(** X2: the registry is changed by the requests that reach [serveImage]
    and by no others: when none of the requests served is routed to it,
    whatever their paths, methods and outcomes, the registry afterwards is
    the registry before. *)
Theorem registry_untouched_without_tracking
    (promhttp_Handler : Metrics -> Env -> ResponseWriter -> ResponseWriter)
    (cfg : Config) (reqs : list (Env * Request)) (p : Proc) :
  imageInvocations cfg reqs = 0 ->
  metrics (serve promhttp_Handler cfg reqs p).2 = metrics p.
Proof.
  intros Hn. rewrite serve_metrics_ops. by rewrite servedOps_none.
Qed.

Lemma registry_untouched_without_tracking_witness :
  metrics (serve blankExposition defaultConfig stateOnly initProc).2 = initMetrics.
Proof.
  apply (registry_untouched_without_tracking blankExposition defaultConfig
           stateOnly initProc).
  reflexivity.
Defined.

(** X3: [serveImage] writes nothing to the service log and never queries
    the file system: after a request that reaches it, with any method and
    any outcome of the write, the log and the record of stat calls are as
    before, and response and state are the same for every file system. *)
Theorem image_ignores_file_system
    (promhttp_Handler : Metrics -> Env -> ResponseWriter -> ResponseWriter)
    (cfg : Config) (e : Env) (r : Request) (p : Proc) :
  route cfg (URLPath r) = Some ToServeImage ->
  let out := ServeHTTP promhttp_Handler cfg e r p in
  serviceLog out.2 = serviceLog p
  /\ syscalls out.2 = syscalls p
  /\ forall f, ServeHTTP promhttp_Handler cfg (withFs f e) r p = out.
Proof.
  intros Hr. cbn zeta.
  destruct (decide (Method r = "GET")) as [Hm|Hm].
  - rewrite ServeHTTP_image_GET by done. repeat split.
    intros f. by rewrite ServeHTTP_image_GET.
  - rewrite ServeHTTP_image_other_method by done. repeat split.
    intros f. by rewrite ServeHTTP_image_other_method.
Qed.

Lemma image_ignores_file_system_witness :
  let out := ServeHTTP blankExposition defaultConfig
               (env ∅ brokenPipe) (request "GET" "/track") initProc in
  serviceLog out.2 = []
  /\ syscalls out.2 = []
  /\ forall f, ServeHTTP blankExposition defaultConfig
                 (withFs f (env ∅ brokenPipe)) (request "GET" "/track") initProc
               = out.
Proof.
  apply (image_ignores_file_system blankExposition defaultConfig
           (env ∅ brokenPipe) (request "GET" "/track") initProc).
  reflexivity.
Defined.

Section Durations.

Variable promhttp_Handler : Metrics -> Env -> ResponseWriter -> ResponseWriter.
Variable cfg : Config.

Lemma ServeHTTP_durations e r p :
  serveImageRequestDuration (metrics (ServeHTTP promhttp_Handler cfg e r p).2)
  = (serveImageRequestDuration (metrics p)
       ++ if decide (route cfg (URLPath r) = Some ToServeImage)
          then [(clockExit e - clockEntry e)%Z] else [])%list.
Proof.
  case_decide as Hr.
  - destruct (decide (Method r = "GET")) as [Hm|Hm].
    + rewrite ServeHTTP_image_GET by done. cbn. unfold imageCounted.
      by destruct (error_of (conn e)).
    + by rewrite ServeHTTP_image_other_method.
  - rewrite ServeHTTP_elsewhere_metrics by done. by rewrite app_nil_r.
Qed.

Lemma serve_durations reqs : forall p,
  serveImageRequestDuration (metrics (serve promhttp_Handler cfg reqs p).2)
  = (serveImageRequestDuration (metrics p) ++ imageElapsed cfg reqs)%list.
Proof.
  induction reqs as [|[e r] reqs IH]; intros p.
  - cbn. by rewrite app_nil_r.
  - rewrite serve_cons. cbn [snd imageElapsed].
    by rewrite IH, ServeHTTP_durations, <- app_assoc.
Qed.

End Durations.

(** X4: serving requests only ever adds to what the process keeps: the
    count of the summary, the byte counter and the counter of every label
    are at least what they were, and the observations, the service log and
    the record of stat calls are extended at their end, never rewritten. *)
Theorem registry_only_grows
    (promhttp_Handler : Metrics -> Env -> ResponseWriter -> ResponseWriter)
    (cfg : Config) (reqs : list (Env * Request)) (p : Proc) :
  let out := (serve promhttp_Handler cfg reqs p).2 in
  observations p <= observations out
  /\ (bytesServed p <= bytesServed out)%N
  /\ (forall label,
        (prometheus.Value (serveImageRequestsCount (metrics p)) label
         <= prometheus.Value (serveImageRequestsCount (metrics out)) label)%N)
  /\ serveImageRequestDuration (metrics p)
       `prefix_of` serveImageRequestDuration (metrics out)
  /\ serviceLog p `prefix_of` serviceLog out
  /\ syscalls p `prefix_of` syscalls out.
Proof.
  cbn zeta.
  destruct (serve_log_stat promhttp_Handler cfg reqs p) as [Hl Hs]. cbn zeta in *.
  assert (Hd := serve_durations promhttp_Handler cfg reqs p).
  unfold observations, bytesServed, prometheus.Count.
  rewrite Hl, Hs, Hd, serve_metrics_ops, length_app.
  split; [lia|]. split; [|split; [|split; [|split]]].
  - destruct (perform_readings (servedOps cfg reqs) (metrics p) "") as (_ & Hb & _).
    cbn zeta in Hb. rewrite Hb. lia.
  - intros label.
    destruct (perform_readings (servedOps cfg reqs) (metrics p) label) as (_ & _ & Hv).
    cbn zeta in Hv. rewrite Hv. lia.
  - by eexists.
  - by eexists.
  - by eexists.
Qed.

(** X5: from process start, after any requests, the byte counter is 42
    times the success counter, the success and failure counters together
    count the GET requests that reached [serveImage] (so they never exceed
    the count of the summary, which also takes the other methods), and no
    label but success and failure has been counted. *)
Theorem bytes_follow_successes
    (promhttp_Handler : Metrics -> Env -> ResponseWriter -> ResponseWriter)
    (cfg : Config) (reqs : list (Env * Request)) :
  let out := (serve promhttp_Handler cfg reqs initProc).2 in
  bytesServed out = (42 * successes out)%N
  /\ (successes out + failures out)%N = N.of_nat (imageGETs cfg reqs)
  /\ (successes out + failures out <= N.of_nat (observations out))%N
  /\ forall label, label ≠ "success" -> label ≠ "failure" ->
       prometheus.Value (serveImageRequestsCount (metrics out)) label = 0%N.
Proof.
  cbn zeta. unfold bytesServed, successes, failures, observations.
  rewrite serve_metrics_ops.
  destruct (servedOps_tallies cfg reqs) as (Ha & Hb & Hc).
  destruct (perform_readings (servedOps cfg reqs) (metrics initProc) "success")
    as (Ho & Hsz & Hs).
  destruct (perform_readings (servedOps cfg reqs) (metrics initProc) "failure")
    as (_ & _ & Hf).
  cbn zeta in *. rewrite Ho, Hsz, Hs, Hf, Ha, Hc.
  assert (Hle := imageGETs_le cfg reqs).
  change (serveImageRequestsSize (metrics initProc)) with 0%N.
  change (prometheus.Value (serveImageRequestsCount (metrics initProc)) "success") with 0%N.
  change (prometheus.Value (serveImageRequestsCount (metrics initProc)) "failure") with 0%N.
  change (prometheus.Count (metrics initProc)) with 0.
  repeat split; try lia.
  intros label Hls Hlf.
  destruct (perform_readings (servedOps cfg reqs) (metrics initProc) label)
    as (_ & _ & Hv).
  cbn zeta in Hv. rewrite Hv, tally_bumped_elsewhere by done. reflexivity.
Qed.

(** X6: every GET on the state path makes exactly one stat call, on the
    configured marker path, and nothing else makes any: after any requests
    the record of stat calls has grown by one such entry per GET routed to
    [serveState]. *)
Theorem one_stat_per_state_GET
    (promhttp_Handler : Metrics -> Env -> ResponseWriter -> ResponseWriter)
    (cfg : Config) (reqs : list (Env * Request)) (p : Proc) :
  syscalls (serve promhttp_Handler cfg reqs p).2
  = (syscalls p ++ replicate (stateGETs cfg reqs) (SysStat (stateFilePath cfg)))%list.
Proof.
  by destruct (serve_log_stat promhttp_Handler cfg reqs p) as [_ Hs].
Qed.

(** X7: the service log takes the warnings of the GET requests on the state
    path whose write failed, in the order of the requests, and nothing else:
    no other request, whatever its path, method or outcome, is logged
    there. *)
Theorem only_state_write_failures_logged
    (promhttp_Handler : Metrics -> Env -> ResponseWriter -> ResponseWriter)
    (cfg : Config) (reqs : list (Env * Request)) (p : Proc) :
  serviceLog (serve promhttp_Handler cfg reqs p).2
  = (serviceLog p ++ stateWarnings cfg reqs)%list.
Proof.
  by destruct (serve_log_stat promhttp_Handler cfg reqs p) as [Hl _].
Qed.

(** X8: the summary takes, in the order of the requests, the time between
    entry and exit of every request that reached [serveImage], whatever its
    method and outcome, and no other value. *)
Theorem observations_are_elapsed_times
    (promhttp_Handler : Metrics -> Env -> ResponseWriter -> ResponseWriter)
    (cfg : Config) (reqs : list (Env * Request)) (p : Proc) :
  serveImageRequestDuration (metrics (serve promhttp_Handler cfg reqs p).2)
  = (serveImageRequestDuration (metrics p) ++ imageElapsed cfg reqs)%list.
Proof.
  apply serve_durations.
Qed.

(** X9: when the clock of no request runs backwards, and the observations
    so far are not negative, no observation after the requests is negative. *)
Theorem observations_not_negative
    (promhttp_Handler : Metrics -> Env -> ResponseWriter -> ResponseWriter)
    (cfg : Config) (reqs : list (Env * Request)) (p : Proc) :
  Forall (fun er : Env * Request => (clockEntry er.1 <= clockExit er.1)%Z) reqs ->
  Forall (fun v => (0 <= v)%Z) (serveImageRequestDuration (metrics p)) ->
  Forall (fun v => (0 <= v)%Z)
    (serveImageRequestDuration (metrics (serve promhttp_Handler cfg reqs p).2)).
Proof.
  intros Hclock Hp. rewrite serve_durations. apply Forall_app. split; [done|].
  induction Hclock as [|[e r] reqs Hhd _ IH]; [constructor|].
  cbn [imageElapsed]. apply Forall_app. split; [|done].
  case_decide; constructor; [cbn in Hhd; lia | constructor].
Qed.

Lemma observations_not_negative_witness :
  Forall (fun v => (0 <= v)%Z)
    (serveImageRequestDuration
       (metrics (serve blankExposition defaultConfig mixedTraffic initProc).2)).
Proof.
  apply (observations_not_negative blankExposition defaultConfig mixedTraffic initProc).
  - unfold mixedTraffic.
    repeat match goal with
           | |- Forall _ (_ :: _) => constructor
           | |- Forall _ [] => constructor
           end; cbn; lia.
  - constructor.
Defined.

(** X10: on the tracking path and on the state path the status is decided
    by the method and, on the state path, by the stat of the marker: 404
    exactly for another method than GET, 503 exactly for a GET on the state
    path when the stat fails, 200 exactly for the other GETs, also when the
    write of the body fails; every such response goes out with a
    Content-Type and the handler hands over a body that is not empty. *)
Theorem status_by_method_and_health
    (promhttp_Handler : Metrics -> Env -> ResponseWriter -> ResponseWriter)
    (cfg : Config) (e : Env) (r : Request) (p : Proc) :
  route cfg (URLPath r) = Some ToServeImage \/ route cfg (URLPath r) = Some ToServeState ->
  let resp := (ServeHTTP promhttp_Handler cfg e r p).1 in
  let stat := os.Stat (fs e) (stateFilePath cfg) in
  (status resp = Some 404%Z <-> Method r ≠ "GET")
  /\ (status resp = Some 503%Z <->
      route cfg (URLPath r) = Some ToServeState /\ Method r = "GET" /\ stat ≠ inl tt)
  /\ (status resp = Some 200%Z <->
      Method r = "GET" /\ (route cfg (URLPath r) = Some ToServeImage \/ stat = inl tt))
  /\ is_Some (sentHeader resp !! "Content-Type")
  /\ body resp ≠ [].
Proof.
  intros Hr. cbn zeta.
  destruct (decide (Method r = "GET")) as [Hm|Hm], Hr as [Hr|Hr].
  - rewrite ServeHTTP_image_GET by done. cbn -[route].
    repeat split; try done; try (intros; destruct_and?; congruence); eauto.
  - rewrite ServeHTTP_state_GET by done. unfold stateResponse, healthy. cbn -[route os.Stat].
    destruct (os.Stat (fs e) (stateFilePath cfg)) as [[]|err]; cbn -[route];
      repeat split; try done; try (intros; destruct_and?; congruence); eauto.
    intros [_ [?|?]]; congruence.
  - rewrite ServeHTTP_image_other_method by done. cbn -[route].
    repeat split; try done; try (intros; destruct_and?; congruence); eauto.
  - rewrite ServeHTTP_state_other_method by done. cbn -[route].
    repeat split; try done; try (intros; destruct_and?; congruence); eauto.
Qed.

Lemma status_by_method_and_health_witness :
  status (ServeHTTP blankExposition defaultConfig
            (env markerDenied brokenPipe) (request "GET" "/state") initProc).1
  = Some 503%Z.
Proof.
  destruct (status_by_method_and_health blankExposition defaultConfig
              (env markerDenied brokenPipe) (request "GET" "/state") initProc)
    as (_ & [_ H503] & _).
  - right. reflexivity.
  - apply H503. split; [reflexivity|]. split; [reflexivity|].
    intros H. vm_compute in H. discriminate H.
Defined.

(** X11: no handler sets a header once the status line has gone out: on
    the tracking path and on the state path the headers that went with the
    status are all the headers of the response, for every method and
    outcome. *)
Theorem no_header_after_status
    (promhttp_Handler : Metrics -> Env -> ResponseWriter -> ResponseWriter)
    (cfg : Config) (e : Env) (r : Request) (p : Proc) :
  route cfg (URLPath r) = Some ToServeImage \/ route cfg (URLPath r) = Some ToServeState ->
  let resp := (ServeHTTP promhttp_Handler cfg e r p).1 in
  sentHeader resp = header resp.
Proof.
  intros Hr. cbn zeta.
  destruct (decide (Method r = "GET")) as [Hm|Hm], Hr as [Hr|Hr].
  - by rewrite ServeHTTP_image_GET.
  - by rewrite ServeHTTP_state_GET.
  - by rewrite ServeHTTP_image_other_method.
  - by rewrite ServeHTTP_state_other_method.
Qed.

Lemma no_header_after_status_witness :
  let resp := (ServeHTTP blankExposition defaultConfig
                 (env ∅ WriteOk) (request "GET" "/state") initProc).1 in
  sentHeader resp = header resp.
Proof.
  apply (no_header_after_status blankExposition defaultConfig
           (env ∅ WriteOk) (request "GET" "/state") initProc).
  right. reflexivity.
Defined.

(** X12: of the file system, a request on the state path sees the entry of
    the marker path and nothing else, and it does not read the clock: two
    environments that agree on that entry and on the connection give the
    same response and the same state. *)
Theorem state_reads_marker_only
    (promhttp_Handler : Metrics -> Env -> ResponseWriter -> ResponseWriter)
    (cfg : Config) (e e' : Env) (r : Request) (p : Proc) :
  route cfg (URLPath r) = Some ToServeState ->
  fs e !! stateFilePath cfg = fs e' !! stateFilePath cfg ->
  conn e = conn e' ->
  ServeHTTP promhttp_Handler cfg e r p = ServeHTTP promhttp_Handler cfg e' r p.
Proof.
  intros Hr Hfs Hc.
  destruct (decide (Method r = "GET")) as [Hm|Hm].
  - rewrite !ServeHTTP_state_GET by done.
    unfold stateResponse, stateProc, stateWarning, healthy, os.Stat.
    by rewrite Hfs, Hc.
  - rewrite !ServeHTTP_state_other_method by done.
    unfold notFoundResponse. by rewrite Hc.
Qed.

Lemma state_reads_marker_only_witness :
  ServeHTTP blankExposition defaultConfig
    (env markerPresent WriteOk) (request "GET" "/state") initProc
  = ServeHTTP blankExposition defaultConfig
      {| fs := crowded; conn := WriteOk; clockEntry := 7; clockExit := 3 |}
      (request "GET" "/state") initProc.
Proof.
  apply (state_reads_marker_only blankExposition defaultConfig
           (env markerPresent WriteOk)
           {| fs := crowded; conn := WriteOk; clockEntry := 7; clockExit := 3 |}
           (request "GET" "/state") initProc).
  - reflexivity.
  - vm_compute. reflexivity.
  - reflexivity.
Defined.

(** X13: the readings of the registry do not depend on the order in which
    the operations of the requests reach it: performed in any order, the
    operations of the requests that reach [serveImage] leave the count of
    the summary, the byte counter and the counter of every label as serving
    the requests one after the other does. *)
Theorem readings_whatever_the_schedule
    (promhttp_Handler : Metrics -> Env -> ResponseWriter -> ResponseWriter)
    (cfg : Config) (reqs : list (Env * Request)) (sched : list MetricOp)
    (p : Proc) (label : string) :
  sched ≡ₚ servedOps cfg reqs ->
  let m := foldl perform (metrics p) sched in
  let out := (serve promhttp_Handler cfg reqs p).2 in
  prometheus.Count m = observations out
  /\ serveImageRequestsSize m = bytesServed out
  /\ prometheus.Value (serveImageRequestsCount m) label
     = prometheus.Value (serveImageRequestsCount (metrics out)) label.
Proof.
  intros Hp. cbn zeta. unfold observations, bytesServed.
  rewrite serve_metrics_ops.
  apply readings_any_schedule, Hp.
Qed.

Lemma readings_whatever_the_schedule_witness :
  let m := foldl perform initMetrics interleaved in
  let out := (serve blankExposition defaultConfig twoTracked initProc).2 in
  prometheus.Count m = observations out
  /\ serveImageRequestsSize m = bytesServed out
  /\ prometheus.Value (serveImageRequestsCount m) "failure"
     = prometheus.Value (serveImageRequestsCount (metrics out)) "failure".
Proof.
  apply (readings_whatever_the_schedule blankExposition defaultConfig
           twoTracked interleaved initProc "failure").
  change (servedOps defaultConfig twoTracked)
    with [OpInc "success"; OpAdd 42; OpObserve 5; OpInc "failure"; OpObserve 5].
  unfold interleaved.
  apply perm_skip.
  apply perm_trans with [OpInc "failure"; OpAdd 42; OpObserve 5; OpObserve 5].
  - apply perm_skip. apply perm_swap.
  - apply perm_trans with [OpAdd 42; OpInc "failure"; OpObserve 5; OpObserve 5].
    + apply perm_swap.
    + apply perm_skip. apply perm_swap.
Defined.

(** X14: [startServer] logs the started line with the listen address before
    anything else, also when listening then fails; it returns only when
    [ListenAndServe] returned [ErrServerClosed]; on every other result it
    logs ERROR with the error and the process exits with status 1.  The
    registry is not touched. *)
Theorem startServer_fatal_unless_closed
    (cfg : Config) (listenAndServe : option error) (p : Proc) :
  let out := startServer cfg listenAndServe p in
  let started := ("INFO http: Server started " ++ listenAddress cfg)%string in
  (out.1 = Returns <-> listenAndServe = Some ErrServerClosed)
  /\ (out.1 = Returns -> serviceLog out.2 = (serviceLog p ++ [started])%list)
  /\ (out.1 ≠ Returns ->
      out.1 = Exits 1
      /\ serviceLog out.2
         = (serviceLog p ++ [started; ("ERROR " ++ error_text listenAndServe)%string])%list)
  /\ metrics out.2 = metrics p
  /\ syscalls out.2 = syscalls p.
Proof.
  cbn zeta. unfold startServer, log_Fatal, logLine.
  case_decide as Herr; cbn.
  - rewrite <- app_assoc. repeat split; try done.
  - repeat split; try done.
Qed.

(** X15: [stopServer] gives [Shutdown] a context of 8 seconds and reads
    nothing else of it; it logs the stopping line, then the graceful line
    when [Shutdown] returned nil and the forceful line when it returned an
    error, whichever error that was; it returns in both cases and the
    registry is not touched. *)
Theorem stopServer_logs_outcome (Shutdown : Z -> option error) (p : Proc) :
  let out := stopServer Shutdown p in
  (Shutdown 8000000000%Z = None ->
   serviceLog out
   = (serviceLog p ++ ["INFO http: Server stopping";
                       "INFO http: Server stopped gracefully"])%list)
  /\ (forall err, Shutdown 8000000000%Z = Some err ->
      serviceLog out
      = (serviceLog p ++ ["INFO http: Server stopping";
                          "INFO http: Server stopped forcefully"])%list)
  /\ (forall Shutdown' : Z -> option error,
        Shutdown' 8000000000%Z = Shutdown 8000000000%Z ->
        stopServer Shutdown' p = out)
  /\ metrics out = metrics p
  /\ syscalls out = syscalls p.
Proof.
  cbn zeta. unfold stopServer, logLine.
  change (8 * Second)%Z with 8000000000%Z.
  split; [|split; [|split]].
  - intros H. rewrite H. cbn. by rewrite <- app_assoc.
  - intros err H. rewrite H. cbn. by rewrite <- app_assoc.
  - intros Shutdown' H. by rewrite H.
  - by destruct (Shutdown 8000000000%Z).
Qed.
